(** * ETH AI trading agent mock backend: settings store, signal and trade-log readers

  A shallow embedding of [backend/api/models.py], [backend/api/settings.py],
  [backend/api/signal.py] and [backend/api/trade_log.py], and of the route
  table that [backend/main.py] builds from the routers of the api modules.

  Python dictionaries with string keys are finite maps [gmap string _];
  Python floats are binary64 primitive floats; the module-level dictionary
  [mock_settings_data], the only mutable object of the program, is threaded
  explicitly through the handlers that read or write it.  The artificial
  [time.sleep] delays have no effect on any value and are left out. *)

From Stdlib Require Import PrimFloat ZArith.
From stdpp Require Import gmap strings list fin_maps.

Set Warnings "-inexact-float,-register-all".

Local Open Scope Z_scope.
Local Open Scope string_scope.

(** ** Python values *)

Module Py.

(** The values that occur in the fixtures and in request bodies. *)
Inductive pyval : Type :=
| PNone
| PBool (b : bool)
| PInt (z : Z)
| PFloat (f : float)
| PStr (s : string).

(** [value is not None] *)
Definition is_not_None (v : pyval) : bool :=
  match v with
  | PNone => false
  | _ => true
  end.

(** An [Optional[T]] attribute read back as a Python value. *)
Definition of_optional {A} (inj : A → pyval) (o : option A) : pyval :=
  match o with
  | Some a => inj a
  | None => PNone
  end.

Inductive exn : Type :=
| KeyError (k : string).

Inductive result (A : Type) : Type :=
| Ok (a : A)
| Raise (e : exn).
Global Arguments Ok {A} a.
Global Arguments Raise {A} e.

(** [d[k]]: subscription raises [KeyError] on a missing key. *)
Definition getitem {V} (d : gmap string V) (k : string) : result V :=
  match d !! k with
  | Some v => Ok v
  | None => Raise (KeyError k)
  end.

(** [k in d] *)
Definition contains {V} (d : gmap string V) (k : string) : bool :=
  bool_decide (is_Some (d !! k)).

End Py.
Import Py.

(** ** models.py *)

Module Models.

(** [Literal["futures", "spot"]] *)
Inductive AccountType : Type := futures | spot.

Definition AccountType_str (a : AccountType) : string :=
  match a with
  | futures => "futures"
  | spot => "spot"
  end.

Definition AccountType_of_str (s : string) : option AccountType :=
  if decide (s = "futures") then Some futures
  else if decide (s = "spot") then Some spot
  else None.

(** [class SettingsData(BaseModel)] *)
Record SettingsData : Type := mkSettingsData {
  sd_autoTrading : bool;
  sd_stopLoss : float;
  sd_takeProfit : float;
  sd_telegramAlerts : bool;
  sd_accountType : AccountType
}.

(** [class SettingsUpdate(BaseModel)]: five optional attributes, each
    defaulting to [None], together with pydantic's record of the attributes
    that the request set explicitly ([__fields_set__]). *)
Record SettingsUpdate : Type := mkSettingsUpdate {
  autoTrading : option bool;
  stopLoss : option float;
  takeProfit : option float;
  telegramAlerts : option bool;
  accountType : option AccountType;
  fields_set : gset string
}.

(** The attributes of [SettingsUpdate], in declaration order. *)
Definition SettingsUpdate_fields : list string :=
  ["autoTrading"; "stopLoss"; "takeProfit"; "telegramAlerts"; "accountType"].

(** [getattr(settings, k)] for a declared attribute [k]. *)
Definition getattr (u : SettingsUpdate) (k : string) : option pyval :=
  if decide (k = "autoTrading") then Some (of_optional PBool (autoTrading u))
  else if decide (k = "stopLoss") then Some (of_optional PFloat (stopLoss u))
  else if decide (k = "takeProfit") then Some (of_optional PFloat (takeProfit u))
  else if decide (k = "telegramAlerts") then Some (of_optional PBool (telegramAlerts u))
  else if decide (k = "accountType") then
    Some (of_optional (λ a, PStr (AccountType_str a)) (accountType u))
  else None.

(** [settings.dict(exclude_unset=True).items()]: the explicitly set
    attributes with their values, in declaration order. *)
Definition dict_exclude_unset (u : SettingsUpdate) : list (string * pyval) :=
  omap (λ k, if decide (k ∈ fields_set u) then pair k <$> getattr u k else None)
       SettingsUpdate_fields.

(** [SettingsUpdate()]: nothing set. *)
Definition SettingsUpdate_default : SettingsUpdate :=
  mkSettingsUpdate None None None None None ∅.

(** Reading a dictionary through the response model [SettingsData]: all
    five keys must be present with values of the declared types. *)
Definition SettingsData_of_dict (d : gmap string pyval) : option SettingsData :=
  match d !! "autoTrading", d !! "stopLoss", d !! "takeProfit",
        d !! "telegramAlerts", d !! "accountType" with
  | Some (PBool a), Some (PFloat sl), Some (PFloat tp), Some (PBool t), Some (PStr s) =>
      mkSettingsData a sl tp t <$> AccountType_of_str s
  | _, _, _, _, _ => None
  end.

End Models.
Import Models.

(** ** settings.py *)

Module Settings.

(** The module-level dictionary at import time. *)
Definition mock_settings_data : gmap string pyval :=
  <["accountType" := PStr "futures"]>
  (<["telegramAlerts" := PBool true]>
  (<["takeProfit" := PFloat 5.0]>
  (<["stopLoss" := PFloat 2.5]>
  (<["autoTrading" := PBool false]> ∅)))).

(** [get_settings]: returns the dictionary; the store is not changed. *)
Definition get_settings (store : gmap string pyval)
  : gmap string pyval * gmap string pyval :=
  (store, store).

(** The body of the [for key, value in ...] loop of [update_settings]. *)
Definition update_step (store : gmap string pyval) (item : string * pyval)
  : gmap string pyval :=
  let '(key, value) := item in
  if is_not_None value then <[key := value]> store else store.

Fixpoint update_loop (items : list (string * pyval)) (store : gmap string pyval)
  : gmap string pyval :=
  match items with
  | [] => store
  | item :: rest => update_loop rest (update_step store item)
  end.

(** [update_settings]: merges the request in place and returns the
    dictionary itself, so the returned value and the new store coincide. *)
Definition update_settings (settings : SettingsUpdate) (store : gmap string pyval)
  : gmap string pyval * gmap string pyval :=
  let store' := update_loop (dict_exclude_unset settings) store in
  (store', store').

(** The store after a sequence of PATCH requests. *)
Definition run_updates (us : list SettingsUpdate) (store : gmap string pyval)
  : gmap string pyval :=
  foldl (λ st u, snd (update_settings u st)) store us.

End Settings.
Import Settings.

(** ** signal.py *)

Module Signal.

Definition signal_default : gmap string pyval :=
  <["timestamp" := PStr "2023-07-21 14:00:00 (1h)"]>
  (<["reasoning" := PStr "Hourly chart showing bearish divergence on RSI. Price rejected at key resistance level with increasing sell volume."]>
  (<["confidence" := PInt 81]>
  (<["targetPrice" := PFloat 1550.0]>
  (<["stopLoss" := PFloat 1610.5]>
  (<["entryPoint" := PFloat 1589.9]>
  (<["signal" := PStr "SELL"]> ∅)))))).

Definition signal_1m : gmap string pyval :=
  <["timestamp" := PStr "2023-07-21 14:45:12 (1m)"]>
  (<["reasoning" := PStr "Short-term momentum showing downward pressure with increasing sell volume."]>
  (<["confidence" := PInt 65]>
  (<["targetPrice" := PFloat 1580.0]>
  (<["stopLoss" := PFloat 1595.0]>
  (<["entryPoint" := PFloat 1589.9]>
  (<["signal" := PStr "SELL"]> ∅)))))).

Definition signal_5m : gmap string pyval :=
  <["timestamp" := PStr "2023-07-21 14:40:05 (5m)"]>
  (<["reasoning" := PStr "Price breaking below 5-minute support with strong volume confirmation. MACD showing bearish crossover."]>
  (<["confidence" := PInt 72]>
  (<["targetPrice" := PFloat 1570.0]>
  (<["stopLoss" := PFloat 1600.0]>
  (<["entryPoint" := PFloat 1589.9]>
  (<["signal" := PStr "SELL"]> ∅)))))).

Definition signal_15m : gmap string pyval :=
  <["timestamp" := PStr "2023-07-21 14:32:05 (15m)"]>
  (<["reasoning" := PStr "15-minute chart showing clear downtrend with lower highs. RSI indicating bearish momentum."]>
  (<["confidence" := PInt 78]>
  (<["targetPrice" := PFloat 1560.0]>
  (<["stopLoss" := PFloat 1605.0]>
  (<["entryPoint" := PFloat 1589.9]>
  (<["signal" := PStr "SELL"]> ∅)))))).

Definition signal_1h : gmap string pyval :=
  <["timestamp" := PStr "2023-07-21 14:00:00 (1h)"]>
  (<["reasoning" := PStr "Hourly chart showing bearish divergence on RSI. Price rejected at key resistance level with increasing sell volume."]>
  (<["confidence" := PInt 81]>
  (<["targetPrice" := PFloat 1550.0]>
  (<["stopLoss" := PFloat 1610.5]>
  (<["entryPoint" := PFloat 1589.9]>
  (<["signal" := PStr "SELL"]> ∅)))))).

Definition signal_4h : gmap string pyval :=
  <["timestamp" := PStr "2023-07-21 12:00:00 (4h)"]>
  (<["reasoning" := PStr "4-hour chart showing clear bearish pattern with decreasing buy volume. Multiple resistance rejections."]>
  (<["confidence" := PInt 85]>
  (<["targetPrice" := PFloat 1540.0]>
  (<["stopLoss" := PFloat 1620.0]>
  (<["entryPoint" := PFloat 1589.9]>
  (<["signal" := PStr "SELL"]> ∅)))))).

Definition signal_1d : gmap string pyval :=
  <["timestamp" := PStr "2023-07-21 00:00:00 (1d)"]>
  (<["reasoning" := PStr "Daily chart showing consolidation pattern. Waiting for clear breakout direction."]>
  (<["confidence" := PInt 60]>
  (<["targetPrice" := PFloat 1650.0]>
  (<["stopLoss" := PFloat 1550.0]>
  (<["entryPoint" := PFloat 1589.9]>
  (<["signal" := PStr "HOLD"]> ∅)))))).

(** The fixture table, one dictionary per key. *)
Definition mock_signal_data : gmap string (gmap string pyval) :=
  <["1d" := signal_1d]>
  (<["4h" := signal_4h]>
  (<["1h" := signal_1h]>
  (<["15m" := signal_15m]>
  (<["5m" := signal_5m]>
  (<["1m" := signal_1m]>
  (<["default" := signal_default]> ∅)))))).

(** The body of [get_signal], for a given value of the parameter. *)
Definition get_signal (timeframe : string) : result (gmap string pyval) :=
  if contains mock_signal_data timeframe
  then getitem mock_signal_data timeframe
  else getitem mock_signal_data "default".

(** The handler as the router calls it: [Query("15m", ...)] supplies the
    value of [timeframe] when the query string does not carry one. *)
Definition get_signal_query (timeframe : option string) : result (gmap string pyval) :=
  get_signal (default "15m" timeframe).

End Signal.
Import Signal.

(** ** trade_log.py *)

Module TradeLog.

Definition trade (id date direction : string) (entry exit pnl : pyval) (status : string)
  : gmap string pyval :=
  <["status" := PStr status]>
  (<["pnl" := pnl]>
  (<["exit" := exit]>
  (<["entry" := entry]>
  (<["direction" := PStr direction]>
  (<["date" := PStr date]>
  (<["id" := PStr id]> ∅)))))).

Definition mock_trade_log_data : list (gmap string pyval) :=
  [ trade "1" "2023-06-01 14:30" "BUY" (PFloat 0.5123) (PFloat 0.5345) (PFloat 4.33) "COMPLETED";
    trade "2" "2023-06-02 09:15" "SELL" (PFloat 0.542) (PFloat 0.521) (PFloat 3.87) "COMPLETED";
    trade "3" "2023-06-03 11:45" "BUY" (PFloat 0.518) (PFloat 0.511) (PFloat (-1.35)) "COMPLETED";
    trade "4" "2023-06-04 16:20" "BUY" (PFloat 0.523) (PInt 0) (PInt 0) "OPEN";
    trade "5" "2023-06-05 10:05" "SELL" (PFloat 0.531) (PFloat 0.541) (PFloat (-1.88)) "COMPLETED";
    trade "6" "2023-06-06 13:45" "BUY" (PFloat 0.525) (PFloat 0.538) (PFloat 2.48) "COMPLETED";
    trade "7" "2023-06-07 15:30" "BUY" (PFloat 0.54) (PFloat 0.552) (PFloat 2.22) "COMPLETED";
    trade "8" "2023-06-08 09:20" "SELL" (PFloat 0.549) (PInt 0) (PInt 0) "OPEN" ].

Definition get_trade_log : list (gmap string pyval) := mock_trade_log_data.

(** The [id] entries of a list of trades, in list order. *)
Definition trade_ids (log : list (gmap string pyval)) : list (option pyval) :=
  (λ t : gmap string pyval, t !! "id") <$> log.

End TradeLog.
Import TradeLog.

(** ** The PATCH /settings route

    [@router.patch("/settings", response_model=SettingsData)] with the
    parameter [settings: SettingsUpdate = Body(...)]: the handler is called
    only with an object that validation against [SettingsUpdate] has
    produced from the JSON body.  What the source fixes is modelled: the five
    optional attributes, the [Literal] of [accountType], and the handler.
    The validators of [bool] and [float], the status codes and the rendering
    of responses belong to the web framework and its validation library,
    whose versions the repository does not pin; the scalar validators are
    parameters, and status codes and response bodies are not modelled. *)

Module Http.

(** A decoded JSON document. *)
Inductive json : Type :=
| JNull
| JBool (b : bool)
| JInt (z : Z)
| JFloat (f : float)
| JStr (s : string)
| JArr (items : list json)
| JObj (members : list (string * json)).

(** The dictionary a JSON object decodes to: of two members with the same
    name the later one is kept. *)
Definition json_object (members : list (string * json)) : gmap string json :=
  list_to_map (reverse members).

Inductive error_kind : Type :=
| DictExpected
| BoolExpected
| FloatExpected
| LiteralExpected (permitted : list string).

Record validation_error : Type := mkError {
  loc : list string;
  kind : error_kind
}.

(** What a PATCH request leads to: the handler is called and returns a
    dictionary (which the framework then renders through the response
    model), or validation does not produce a [SettingsUpdate] and the handler
    is not called. *)
Inductive patch_outcome : Type :=
| Returned (ret : gmap string pyval)
| NotCalled (errors : list validation_error).

(** The outcome of validating one attribute: an error, or nothing when the
    request does not name the attribute, or the value (possibly [None]). *)
Definition field_errors {A} (r : validation_error + option (option A))
  : list validation_error :=
  match r with
  | inl e => [e]
  | inr _ => []
  end.

Definition field_value {A} (r : validation_error + option (option A)) : option A :=
  match r with
  | inr (Some o) => o
  | _ => None
  end.

Definition field_set {A} (name : string) (r : validation_error + option (option A))
  : gset string :=
  match r with
  | inr (Some _) => {[ name ]}
  | _ => ∅
  end.

(** [Optional[T] = None]: a missing member leaves the default, [null] is
    accepted as [None], anything else goes to the validator of [T]. *)
Definition validate_field {A} (validate : json → option A) (k : error_kind)
    (name : string) (obj : gmap string json)
  : validation_error + option (option A) :=
  match obj !! name with
  | None => inr None
  | Some JNull => inr (Some None)
  | Some v =>
      match validate v with
      | Some a => inr (Some (Some a))
      | None => inl (mkError ["body"; name] k)
      end
  end.

(** [Literal["futures", "spot"]]: one of the two strings, nothing else. *)
Definition validate_AccountType (v : json) : option AccountType :=
  match v with
  | JStr s => AccountType_of_str s
  | _ => None
  end.

(** The largest magnitude below which every integer is a binary64 float. *)
Definition exact_int_bound : Z := 9007199254740992.

Fixpoint float_of_pos (p : positive) : float :=
  match p with
  | xH => 1%float
  | xO q => (2 * float_of_pos q)%float
  | xI q => (2 * float_of_pos q + 1)%float
  end.

(** A sample pair of scalar validators, used to run validation on concrete
    bodies.  They accept only values that every version of the validation
    library accepts, with the value it gives them: JSON booleans for [bool];
    JSON floats, and integers that are exactly representable, for [float].
    The library accepts more (numeric strings, 0 and 1 for [bool], booleans
    and larger integers for [float]); nothing is stated about what these
    samples refuse. *)
Definition json_bool (v : json) : option bool :=
  match v with
  | JBool b => Some b
  | _ => None
  end.

Definition json_float (v : json) : option float :=
  match v with
  | JFloat f => Some f
  | JInt Z0 => Some 0%float
  | JInt (Zpos p) =>
      if decide (Zpos p ≤ exact_int_bound)%Z then Some (float_of_pos p) else None
  | JInt (Zneg p) =>
      if decide (Zpos p ≤ exact_int_bound)%Z then Some (- float_of_pos p)%float else None
  | _ => None
  end.

Section Route.

(** The validators of the scalar types [bool] and [float] belong to the
    validation library; the route is modelled for any such pair. *)
Variable validate_bool : json → option bool.
Variable validate_float : json → option float.

(** Validation of a request body against [SettingsUpdate]: members that are
    not attributes of the model are ignored.  A body that is not a JSON
    object is given no [SettingsUpdate] here; the older generation of the
    library first passes such a body through [dict()], so that it accepts
    the empty array, for example, and nothing is stated about such bodies. *)
Definition SettingsUpdate_validate (body : json)
  : list validation_error + SettingsUpdate :=
  match body with
  | JObj members =>
      let obj := json_object members in
      let r1 := validate_field validate_bool BoolExpected "autoTrading" obj in
      let r2 := validate_field validate_float FloatExpected "stopLoss" obj in
      let r3 := validate_field validate_float FloatExpected "takeProfit" obj in
      let r4 := validate_field validate_bool BoolExpected "telegramAlerts" obj in
      let r5 := validate_field validate_AccountType
                  (LiteralExpected ["futures"; "spot"]) "accountType" obj in
      match (field_errors r1 ++ field_errors r2 ++ field_errors r3
             ++ field_errors r4 ++ field_errors r5)%list with
      | [] =>
          inr (mkSettingsUpdate
                 (field_value r1) (field_value r2) (field_value r3)
                 (field_value r4) (field_value r5)
                 (field_set "autoTrading" r1 ∪ field_set "stopLoss" r2
                  ∪ field_set "takeProfit" r3 ∪ field_set "telegramAlerts" r4
                  ∪ field_set "accountType" r5))
      | errors => inl errors
      end
  | _ => inl [mkError ["body"] DictExpected]
  end.

(** PATCH /settings on a decoded body: the store changes only through the
    handler, which runs only on a validated object. *)
Definition patch_settings (body : json) (store : gmap string pyval)
  : patch_outcome * gmap string pyval :=
  match SettingsUpdate_validate body with
  | inl errors => (NotCalled errors, store)
  | inr settings =>
      let '(ret, store') := update_settings settings store in
      (Returned ret, store')
  end.

End Route.

End Http.
Import Http.

(** ** What a request changes *)

Module Changes.

(** The value a request assigns to a key: the key is set explicitly and its
    value is not [None]. *)
Definition assigned (u : SettingsUpdate) (k : string) : option pyval :=
  if decide (k ∈ fields_set u) then
    match getattr u k with
    | Some v => if is_not_None v then Some v else None
    | None => None
    end
  else None.

(** The items of the request that pass the [value is not None] test, as a
    dictionary. *)
Definition changes (u : SettingsUpdate) : gmap string pyval :=
  list_to_map (filter (λ item, is_not_None item.2) (dict_exclude_unset u)).

End Changes.
Import Changes.

(** ** The response models of the readers (models.py) *)

Module ResponseModels.

(** A [str] field. *)
Definition as_str (v : pyval) : option string :=
  match v with
  | PStr s => Some s
  | _ => None
  end.

(** An [int] field. *)
Definition as_int (v : pyval) : option Z :=
  match v with
  | PInt z => Some z
  | _ => None
  end.

(** A [float] field: a float, or an integer converted to one.  Integers
    beyond the exactly representable range do not occur in the fixtures and
    are not converted here. *)
Definition as_float (v : pyval) : option float :=
  match v with
  | PFloat f => Some f
  | PInt Z0 => Some 0%float
  | PInt (Zpos p) =>
      if decide (Zpos p ≤ exact_int_bound)%Z then Some (float_of_pos p) else None
  | PInt (Zneg p) =>
      if decide (Zpos p ≤ exact_int_bound)%Z then Some (- float_of_pos p)%float else None
  | _ => None
  end.

(** A [Literal[...]] field: one of the permitted strings. *)
Definition as_literal (permitted : list string) (v : pyval) : option string :=
  match v with
  | PStr s => if decide (s ∈ permitted) then Some s else None
  | _ => None
  end.

(** [class SignalData(BaseModel)] *)
Record SignalData : Type := mkSignalData {
  sg_signal : string;
  sg_entryPoint : float;
  sg_stopLoss : float;
  sg_targetPrice : float;
  sg_confidence : Z;
  sg_reasoning : string;
  sg_timestamp : string
}.

Definition SignalData_of_dict (d : gmap string pyval) : option SignalData :=
  sg ← d !! "signal" ≫= as_literal ["BUY"; "SELL"; "HOLD"];
  ep ← d !! "entryPoint" ≫= as_float;
  sl ← d !! "stopLoss" ≫= as_float;
  tp ← d !! "targetPrice" ≫= as_float;
  c ← d !! "confidence" ≫= as_int;
  r ← d !! "reasoning" ≫= as_str;
  ts ← d !! "timestamp" ≫= as_str;
  Some (mkSignalData sg ep sl tp c r ts).

(** [class TradeData(BaseModel)] *)
Record TradeData : Type := mkTradeData {
  td_id : string;
  td_date : string;
  td_direction : string;
  td_entry : float;
  td_exit : float;
  td_pnl : float;
  td_status : string
}.

Definition TradeData_of_dict (d : gmap string pyval) : option TradeData :=
  i ← d !! "id" ≫= as_str;
  dt ← d !! "date" ≫= as_str;
  dir ← d !! "direction" ≫= as_literal ["BUY"; "SELL"];
  en ← d !! "entry" ≫= as_float;
  ex ← d !! "exit" ≫= as_float;
  pn ← d !! "pnl" ≫= as_float;
  st ← d !! "status" ≫= as_literal ["COMPLETED"; "OPEN"; "CANCELLED"];
  Some (mkTradeData i dt dir en ex pn st).

End ResponseModels.
Import ResponseModels.

(** ** The route table of main.py *)

Module App.

(** The request methods considered (HEAD and OPTIONS are left out). *)
Inductive method : Type := GET | POST | PUT | PATCH | DELETE.

Global Instance method_eq_dec : EqDecision method.
Proof. solve_decision. Defined.

(** The handler functions of the application: those of the api modules and
    of main.py, and the four documentation handlers that the framework
    supplies. *)
Inductive handler : Type :=
| h_get_signal
| h_get_performance
| h_get_trade_log
| h_get_settings
| h_update_settings
| h_get_sentiment
| h_get_risk_analysis
| h_root
| h_openapi
| h_swagger_ui_html
| h_swagger_ui_redirect
| h_redoc_html.

(** [app = FastAPI(title=...)]: with no [openapi_url], [docs_url] or
    [redoc_url] given, the application starts with the routes of the schema
    and of the two documentation pages, at their default paths, for GET. *)
Definition docs_routes : list (method * string * handler) :=
  [ (GET, "/openapi.json", h_openapi);
    (GET, "/docs", h_swagger_ui_html);
    (GET, "/docs/oauth2-redirect", h_swagger_ui_redirect);
    (GET, "/redoc", h_redoc_html) ].

(** The [router] of each module: its decorated handlers, in order. *)
Definition signal_router : list (method * string * handler) :=
  [(GET, "/signal", h_get_signal)].

Definition performance_router : list (method * string * handler) :=
  [(GET, "/performance", h_get_performance)].

Definition trade_log_router : list (method * string * handler) :=
  [(GET, "/tradeLog", h_get_trade_log)].

Definition settings_router : list (method * string * handler) :=
  [(GET, "/settings", h_get_settings); (PATCH, "/settings", h_update_settings)].

Definition sentiment_router : list (method * string * handler) :=
  [(GET, "/sentiment", h_get_sentiment)].

Definition risk_analysis_router : list (method * string * handler) :=
  [(GET, "/riskAnalysis", h_get_risk_analysis)].

(** [app.include_router(router, prefix=...)] *)
Definition include_router (router : list (method * string * handler)) (prefix : string)
  : list (method * string * handler) :=
  (λ r : method * string * handler, (r.1.1, prefix +:+ r.1.2, r.2)) <$> router.

(** The six [app.include_router(..., prefix="/api")] calls, in order. *)
Definition api_routes : list (method * string * handler) :=
  (include_router signal_router "/api"
   ++ include_router performance_router "/api"
   ++ include_router trade_log_router "/api"
   ++ include_router settings_router "/api"
   ++ include_router sentiment_router "/api"
   ++ include_router risk_analysis_router "/api")%list.

(** The routes of [app], in the order main.py registers them: those that
    come with [FastAPI(...)], the routers, then [@app.get("/")]. *)
Definition app_routes : list (method * string * handler) :=
  (docs_routes ++ api_routes ++ [(GET, "/", h_root)])%list.

(** The outcome of the router's matching loop.  [NoRoute]: no route has the
    path, and the router falls back to its default (a redirect when the path
    with its trailing slash toggled is registered, 404 otherwise). *)
Inductive routed : Type :=
| Found (h : handler)
| MethodNotAllowed
| NoRoute.

(** The matching loop: the first route with this path and method; when
    routes have the path but none has the method, 405. *)
Fixpoint dispatch (routes : list (method * string * handler))
    (m : method) (path : string) : routed :=
  match routes with
  | [] => NoRoute
  | (m', p, h) :: rest =>
      if decide (p = path) then
        if decide (m' = m) then Found h
        else match dispatch rest m path with
             | Found h' => Found h'
             | _ => MethodNotAllowed
             end
      else dispatch rest m path
  end.

End App.
Import App.

(** ** Requests and states used in the scenarios *)

Module Scenarios.

(** The keys of the settings dictionary. *)
Definition settings_keys : gset string :=
  {[ "autoTrading"; "stopLoss"; "takeProfit"; "telegramAlerts"; "accountType" ]}.

(** A store with exactly the five settings, each of its declared type. *)
Definition settings_shape (store : gmap string pyval) : Prop :=
  dom store = settings_keys ∧
  (∃ b, store !! "autoTrading" = Some (PBool b)) ∧
  (∃ f, store !! "stopLoss" = Some (PFloat f)) ∧
  (∃ f, store !! "takeProfit" = Some (PFloat f)) ∧
  (∃ b, store !! "telegramAlerts" = Some (PBool b)) ∧
  (store !! "accountType" = Some (PStr "futures")
   ∨ store !! "accountType" = Some (PStr "spot")).

(** [{"accountType": "spot"}] *)
Definition patch_accountType_spot : SettingsUpdate :=
  mkSettingsUpdate None None None None (Some spot) {[ "accountType" ]}.

(** [{"stopLoss": 1.0}] *)
Definition patch_stopLoss_1 : SettingsUpdate :=
  mkSettingsUpdate None (Some 1.0%float) None None None {[ "stopLoss" ]}.

(** [{"stopLoss": 3.0, "takeProfit": null}] *)
Definition patch_stopLoss_3_takeProfit_null : SettingsUpdate :=
  mkSettingsUpdate None (Some 3.0%float) None None None {[ "stopLoss"; "takeProfit" ]}.

(** The keys of the signal fixture table. *)
Definition signal_keys : gset string :=
  {[ "default"; "1m"; "5m"; "15m"; "1h"; "4h"; "1d" ]}.

(** A signal dictionary whose confidence is an integer from 0 to 100. *)
Definition confidence_in_range (fixture : gmap string pyval) : Prop :=
  ∃ c : Z, fixture !! "confidence" = Some (PInt c) ∧ (0 ≤ c ≤ 100)%Z.

(** [{"stopLoss": 3.0}] *)
Definition patch_stopLoss_3 : SettingsUpdate :=
  mkSettingsUpdate None (Some 3.0%float) None None None {[ "stopLoss" ]}.

(** [{"autoTrading": true, "stopLoss": 1.0}] *)
Definition patch_autoTrading_stopLoss_1 : SettingsUpdate :=
  mkSettingsUpdate (Some true) (Some 1.0%float) None None None
                   {[ "autoTrading"; "stopLoss" ]}.

End Scenarios.
Import Scenarios.

(** * Properties *)

(** Closed decidable facts (membership in a literal set, distinctness of
    literal keys, numeric bounds) are settled by evaluation. *)
Ltac by_evaluation := apply (bool_decide_unpack _); by vm_compute.

(** ** Python values *)

Lemma is_not_None_true v : is_not_None v = true ↔ v ≠ PNone.
Proof. destruct v; simpl; split; congruence. Qed.

Lemma contains_true {V} (d : gmap string V) k :
  contains d k = true ↔ is_Some (d !! k).
Proof.
  unfold contains.
  split; [apply bool_decide_eq_true_1 | apply bool_decide_eq_true_2].
Qed.

Lemma contains_false {V} (d : gmap string V) k :
  contains d k = false ↔ d !! k = None.
Proof.
  unfold contains. rewrite bool_decide_eq_false, eq_None_not_Some. tauto.
Qed.

(** ** The merge loop of [update_settings] *)

Section UpdateLoop.

Implicit Types (items : list (string * pyval)) (store : gmap string pyval).
Implicit Types (k key : string) (v value : pyval).

Lemma update_step_other store key value k :
  key ≠ k → update_step store (key, value) !! k = store !! k.
Proof.
  intros Hne. unfold update_step.
  destruct (is_not_None value); [by rewrite lookup_insert_ne | done].
Qed.

Lemma update_step_assign store key value :
  value ≠ PNone → update_step store (key, value) !! key = Some value.
Proof.
  intros Hv. unfold update_step.
  apply is_not_None_true in Hv. rewrite Hv. apply lookup_insert_eq.
Qed.

Lemma update_step_None store key : update_step store (key, PNone) = store.
Proof. reflexivity. Qed.

Lemma update_loop_not_in items store k :
  k ∉ items.*1 → update_loop items store !! k = store !! k.
Proof.
  revert store. induction items as [|[key value] rest IH]; intros store Hk.
  - reflexivity.
  - simpl in *. apply not_elem_of_cons in Hk as [Hne Hrest].
    rewrite IH by done. by apply update_step_other.
Qed.

Lemma update_loop_assigned items store k v :
  NoDup items.*1 → (k, v) ∈ items → v ≠ PNone →
  update_loop items store !! k = Some v.
Proof.
  revert store. induction items as [|[key value] rest IH]; intros store Hnd Hin Hv.
  - by apply elem_of_nil in Hin.
  - simpl in *. apply NoDup_cons in Hnd as [Hfresh Hnd].
    apply elem_of_cons in Hin as [Heq | Hin].
    + simplify_eq.
      rewrite update_loop_not_in by done. by apply update_step_assign.
    + by apply IH.
Qed.

Lemma update_loop_skipped items store k :
  NoDup items.*1 → (k, PNone) ∈ items →
  update_loop items store !! k = store !! k.
Proof.
  revert store. induction items as [|[key value] rest IH]; intros store Hnd Hin.
  - by apply elem_of_nil in Hin.
  - simpl in *. apply NoDup_cons in Hnd as [Hfresh Hnd].
    apply elem_of_cons in Hin as [Heq | Hin].
    + simplify_eq.
      rewrite update_loop_not_in by done. reflexivity.
    + rewrite IH by done. apply update_step_other.
      intros ->. apply Hfresh. apply list_elem_of_fmap. by exists (k, PNone).
Qed.

(** The loop never stores [None]: a [None] found afterwards was there before. *)
Lemma update_loop_no_None items store k :
  update_loop items store !! k = Some PNone → store !! k = Some PNone.
Proof.
  revert store. induction items as [|[key value] rest IH]; intros store H.
  - done.
  - simpl in H. apply IH in H. unfold update_step in H.
    destruct (is_not_None value) eqn:Hv; [|done].
    destruct (decide (key = k)) as [->|Hne].
    + rewrite lookup_insert_eq in H. injection H as ->. discriminate.
    + by rewrite lookup_insert_ne in H.
Qed.

(** The loop never deletes a key. *)
Lemma update_loop_keeps items store k :
  is_Some (store !! k) → is_Some (update_loop items store !! k).
Proof.
  revert store. induction items as [|[key value] rest IH]; intros store H.
  - done.
  - simpl. apply IH. unfold update_step.
    destruct (is_not_None value); [|done].
    destruct (decide (key = k)) as [->|Hne].
    + rewrite lookup_insert_eq. eauto.
    + by rewrite lookup_insert_ne.
Qed.

End UpdateLoop.

(** ** [dict(exclude_unset=True)] *)

Lemma getattr_declared u k v :
  getattr u k = Some v → k ∈ SettingsUpdate_fields.
Proof.
  unfold getattr, SettingsUpdate_fields.
  repeat case_decide; subst; intros; try discriminate; by_evaluation.
Qed.

Lemma elem_of_dict_exclude_unset u k v :
  (k, v) ∈ dict_exclude_unset u ↔ k ∈ fields_set u ∧ getattr u k = Some v.
Proof.
  unfold dict_exclude_unset. rewrite list_elem_of_omap. split.
  - intros (k' & _ & H). case_decide as Hset; [|discriminate].
    destruct (getattr u k') as [v'|] eqn:Hget; [|discriminate].
    injection H as <- <-. done.
  - intros [Hset Hget]. exists k. split.
    + by eapply getattr_declared.
    + rewrite decide_True by done. by rewrite Hget.
Qed.

Lemma NoDup_omap_keys (h : string → option (string * pyval)) (ks : list string) :
  (∀ k x, h k = Some x → x.1 = k) → NoDup ks → NoDup (omap h ks).*1.
Proof.
  intros Hh. induction 1 as [|k ks Hfresh Hnd IH]; simpl; [constructor|].
  destruct (h k) as [x|] eqn:Hk; simpl; [|done].
  constructor; [|done].
  apply Hh in Hk as ->.
  intros Hin. apply Hfresh.
  apply list_elem_of_fmap in Hin as (y & Hy & Hin).
  apply list_elem_of_omap in Hin as (k' & Hk' & Heq).
  apply Hh in Heq. congruence.
Qed.

Lemma NoDup_dict_exclude_unset u : NoDup (dict_exclude_unset u).*1.
Proof.
  apply NoDup_omap_keys.
  - intros k x H. case_decide; [|discriminate].
    destruct (getattr u k); [|discriminate]. by injection H as <-.
  - apply (bool_decide_unpack _). by vm_compute.
Qed.

(** The store after [update_settings], key by key. *)
Lemma update_settings_lookup u store k :
  snd (update_settings u store) !! k =
    if decide (k ∈ fields_set u) then
      match getattr u k with
      | Some v => if is_not_None v then Some v else store !! k
      | None => store !! k
      end
    else store !! k.
Proof.
  unfold update_settings. simpl.
  pose proof (NoDup_dict_exclude_unset u) as Hnd.
  case_decide as Hset.
  - destruct (getattr u k) as [v|] eqn:Hget.
    + assert (Hin : (k, v) ∈ dict_exclude_unset u)
        by by apply elem_of_dict_exclude_unset.
      destruct (is_not_None v) eqn:Hv.
      * apply update_loop_assigned; [done..|]. by apply is_not_None_true.
      * destruct v; try discriminate. by apply update_loop_skipped.
    + apply update_loop_not_in. intros Hin.
      apply list_elem_of_fmap in Hin as ([k' v'] & -> & Hin).
      apply elem_of_dict_exclude_unset in Hin as [_ Hin]. simpl in Hget. congruence.
  - apply update_loop_not_in. intros Hin.
    apply list_elem_of_fmap in Hin as ([k' v'] & -> & Hin).
    by apply elem_of_dict_exclude_unset in Hin as [? _].
Qed.

(** ** The settings store *)

(** C1. [update_settings] returns the store it leaves behind; a key that the
    request sets explicitly to a value other than [None] holds that value
    afterwards; every other key (not set, not an attribute, or set to [None])
    keeps what it held; the merge never stores [None] and never removes a
    key. *)
Theorem update_settings_merges (u : SettingsUpdate) (store : gmap string pyval) :
  fst (update_settings u store) = snd (update_settings u store) ∧
  (∀ k v, k ∈ fields_set u → getattr u k = Some v → v ≠ PNone →
          snd (update_settings u store) !! k = Some v) ∧
  (∀ k, k ∉ fields_set u ∨ getattr u k = None ∨ getattr u k = Some PNone →
        snd (update_settings u store) !! k = store !! k) ∧
  (∀ k, snd (update_settings u store) !! k = Some PNone → store !! k = Some PNone) ∧
  (∀ k, is_Some (store !! k) → is_Some (snd (update_settings u store) !! k)).
Proof.
  split; [reflexivity|]. split; [|split; [|split]].
  - intros k v Hset Hget Hv. rewrite update_settings_lookup.
    rewrite decide_True, Hget by done.
    apply is_not_None_true in Hv. by rewrite Hv.
  - intros k H. rewrite update_settings_lookup.
    case_decide as Hset; [|done].
    destruct H as [H | [-> | ->]]; done.
  - intros k. apply update_loop_no_None.
  - intros k. apply update_loop_keeps.
Qed.

Lemma update_settings_merges_witness :
  snd (update_settings patch_stopLoss_3_takeProfit_null mock_settings_data) !! "stopLoss"
    = Some (PFloat 3.0)
  ∧ snd (update_settings patch_stopLoss_3_takeProfit_null mock_settings_data) !! "takeProfit"
    = Some (PFloat 5.0)
  ∧ snd (update_settings patch_stopLoss_3_takeProfit_null mock_settings_data) !! "accountType"
    = Some (PStr "futures").
Proof.
  destruct (update_settings_merges patch_stopLoss_3_takeProfit_null mock_settings_data)
    as (_ & Hset & Hkeep & _ & _).
  split; [|split].
  - apply Hset; [by vm_compute | reflexivity | discriminate].
  - rewrite Hkeep; [reflexivity | right; right; reflexivity].
  - rewrite Hkeep; [reflexivity | left; by vm_compute].
Defined.

(** C3. Before any update, [get_settings] returns the dictionary with
    autoTrading false, stopLoss 2.5, takeProfit 5.0, telegramAlerts true and
    accountType "futures", and nothing else. *)
Theorem get_settings_at_startup :
  fst (get_settings mock_settings_data)
    = list_to_map [ ("autoTrading", PBool false); ("stopLoss", PFloat 2.5);
                    ("takeProfit", PFloat 5.0); ("telegramAlerts", PBool true);
                    ("accountType", PStr "futures") ]
  ∧ SettingsData_of_dict (fst (get_settings mock_settings_data))
    = Some (mkSettingsData false 2.5 5.0 true futures)
  ∧ snd (get_settings mock_settings_data) = mock_settings_data.
Proof. split; [|split]; reflexivity. Qed.

(** C4. The empty request [{}] validates to the update with nothing set, and
    applying it to any store leaves the store, and hence the result of
    [get_settings], as it was. *)
Theorem update_settings_empty_noop (store : gmap string pyval) :
  (∀ vb vf, SettingsUpdate_validate vb vf (JObj []) = inr SettingsUpdate_default) ∧
  snd (update_settings SettingsUpdate_default store) = store ∧
  get_settings (snd (update_settings SettingsUpdate_default store)) = get_settings store.
Proof.
  split; [|split].
  - intros vb vf. reflexivity.
  - reflexivity.
  - reflexivity.
Qed.

Example validate_accountType_spot :
  SettingsUpdate_validate json_bool json_float (JObj [("accountType", JStr "spot")])
    = inr patch_accountType_spot.
Proof. reflexivity. Qed.

Example validate_stopLoss_1 :
  SettingsUpdate_validate json_bool json_float (JObj [("stopLoss", JFloat 1.0)])
    = inr patch_stopLoss_1.
Proof. reflexivity. Qed.

Example validate_stopLoss_3_takeProfit_null :
  SettingsUpdate_validate json_bool json_float
    (JObj [("stopLoss", JInt 3); ("takeProfit", JNull)])
    = inr patch_stopLoss_3_takeProfit_null.
Proof. reflexivity. Qed.

Lemma run_updates_nil store : run_updates [] store = store.
Proof. reflexivity. Qed.

Lemma run_updates_cons u us store :
  run_updates (u :: us) store = run_updates us (snd (update_settings u store)).
Proof. reflexivity. Qed.

(** C5. From any store, [{"accountType": "spot"}] followed by
    [{"stopLoss": 1.0}] leaves accountType "spot" and stopLoss 1.0. *)
Theorem updates_of_distinct_fields_independent (store : gmap string pyval) :
  run_updates [patch_accountType_spot; patch_stopLoss_1] store !! "accountType"
    = Some (PStr "spot")
  ∧ run_updates [patch_accountType_spot; patch_stopLoss_1] store !! "stopLoss"
    = Some (PFloat 1.0).
Proof.
  rewrite !run_updates_cons, run_updates_nil. split.
  - rewrite update_settings_lookup, decide_False by by_evaluation.
    rewrite update_settings_lookup, decide_True by by_evaluation.
    reflexivity.
  - rewrite update_settings_lookup, decide_True by by_evaluation.
    reflexivity.
Qed.

(** ** The shape of the store *)

Lemma settings_shape_startup : settings_shape mock_settings_data.
Proof.
  unfold settings_shape. split; [by_evaluation|].
  repeat split; eauto.
Qed.

Lemma elem_of_settings_keys k : k ∈ settings_keys ↔ k ∈ SettingsUpdate_fields.
Proof.
  unfold settings_keys, SettingsUpdate_fields.
  rewrite !elem_of_union, !elem_of_singleton, !elem_of_cons, elem_of_nil. tauto.
Qed.

Lemma update_settings_dom u store :
  dom store = settings_keys → dom (snd (update_settings u store)) = settings_keys.
Proof.
  intros Hdom. apply set_eq. intros k. rewrite elem_of_dom. split.
  - rewrite update_settings_lookup. intros H.
    assert (is_Some (store !! k) → k ∈ settings_keys) as Hold
      by (rewrite <- Hdom; apply elem_of_dom).
    case_decide; [|auto].
    destruct (getattr u k) as [v|] eqn:Hget; [|auto].
    apply elem_of_settings_keys. by eapply getattr_declared.
  - intros Hk. apply update_loop_keeps. apply elem_of_dom. by rewrite Hdom.
Qed.

Lemma update_settings_shape u store :
  settings_shape store → settings_shape (snd (update_settings u store)).
Proof.
  intros (Hdom & [a Ha] & [sl Hsl] & [tp Htp] & [t Ht] & Hacc).
  split; [by apply update_settings_dom|].
  rewrite !update_settings_lookup.
  change (getattr u "autoTrading") with (Some (of_optional PBool (autoTrading u))).
  change (getattr u "stopLoss") with (Some (of_optional PFloat (stopLoss u))).
  change (getattr u "takeProfit") with (Some (of_optional PFloat (takeProfit u))).
  change (getattr u "telegramAlerts") with (Some (of_optional PBool (telegramAlerts u))).
  change (getattr u "accountType")
    with (Some (of_optional (λ a, PStr (AccountType_str a)) (accountType u))).
  rewrite Ha, Hsl, Htp, Ht.
  repeat split.
  - case_decide; [destruct (autoTrading u)|]; simpl; eauto.
  - case_decide; [destruct (stopLoss u)|]; simpl; eauto.
  - case_decide; [destruct (takeProfit u)|]; simpl; eauto.
  - case_decide; [destruct (telegramAlerts u)|]; simpl; eauto.
  - case_decide; [destruct (accountType u) as [[]|]|]; simpl; auto.
Qed.

Lemma run_updates_shape us store :
  settings_shape store → settings_shape (run_updates us store).
Proof.
  revert store. induction us as [|u us IH]; intros store Hshape.
  - exact Hshape.
  - rewrite run_updates_cons. apply IH. by apply update_settings_shape.
Qed.

(** A store of the right shape is always accepted by the response model. *)
Lemma settings_shape_serializes store :
  settings_shape store → is_Some (SettingsData_of_dict store).
Proof.
  intros (_ & [a Ha] & [sl Hsl] & [tp Htp] & [t Ht] & [Hacc | Hacc]);
    unfold SettingsData_of_dict; rewrite Ha, Hsl, Htp, Ht, Hacc; simpl; eauto.
Qed.

(** C10. After any finite sequence of updates applied to the startup store,
    the store has exactly the keys autoTrading, stopLoss, takeProfit,
    telegramAlerts and accountType, holding a bool, a float, a float, a bool
    and one of the strings "futures" and "spot". *)
Theorem settings_shape_invariant (us : list SettingsUpdate) :
  settings_shape (run_updates us mock_settings_data).
Proof. apply run_updates_shape, settings_shape_startup. Qed.

(** ** The signal reader *)

Lemma dom_mock_signal_data : dom mock_signal_data = signal_keys.
Proof. by_evaluation. Qed.

Lemma get_signal_known timeframe fixture :
  mock_signal_data !! timeframe = Some fixture → get_signal timeframe = Ok fixture.
Proof.
  intros H. unfold get_signal.
  rewrite (proj2 (contains_true _ _)) by eauto.
  unfold getitem. by rewrite H.
Qed.

Lemma get_signal_unknown timeframe :
  mock_signal_data !! timeframe = None → get_signal timeframe = Ok signal_default.
Proof.
  intros H. unfold get_signal.
  by rewrite (proj2 (contains_false _ _)) by done.
Qed.

Lemma get_signal_default : get_signal "default" = Ok signal_default.
Proof. reflexivity. Qed.

(** C2. For a key of the fixture table [get_signal] returns the fixture
    stored under it; for any other string it returns what it returns for
    "default"; in both cases it returns a fixture and raises nothing. *)
Theorem get_signal_lookup (timeframe : string) :
  (∀ fixture, mock_signal_data !! timeframe = Some fixture →
              get_signal timeframe = Ok fixture) ∧
  (timeframe ∈ signal_keys → ∃ fixture,
     mock_signal_data !! timeframe = Some fixture ∧ get_signal timeframe = Ok fixture) ∧
  (timeframe ∉ signal_keys → get_signal timeframe = get_signal "default") ∧
  (∃ fixture, get_signal timeframe = Ok fixture).
Proof.
  split; [apply get_signal_known|]. split; [|split].
  - rewrite <- dom_mock_signal_data, elem_of_dom. intros [fixture H].
    exists fixture. split; [done | by apply get_signal_known].
  - rewrite <- dom_mock_signal_data, not_elem_of_dom. intros H.
    by rewrite get_signal_default, get_signal_unknown.
  - destruct (mock_signal_data !! timeframe) as [fixture|] eqn:H.
    + exists fixture. by apply get_signal_known.
    + exists signal_default. by apply get_signal_unknown.
Qed.

Lemma get_signal_lookup_witness :
  get_signal "4h" = Ok signal_4h ∧ get_signal "2h" = get_signal "default".
Proof.
  split.
  - apply (proj1 (get_signal_lookup "4h")). reflexivity.
  - apply (proj1 (proj2 (proj2 (get_signal_lookup "2h")))). by_evaluation.
Defined.

Lemma fixtures_confidence_in_range :
  map_Forall (λ _ fixture, confidence_in_range fixture) mock_signal_data.
Proof.
  unfold mock_signal_data.
  repeat (apply map_Forall_insert_2;
          [eexists; split; [reflexivity | split; by_evaluation] |]).
  apply map_Forall_empty.
Qed.

(** C8. Whatever the timeframe string, the signal [get_signal] returns has an
    integer confidence between 0 and 100. *)
Theorem get_signal_confidence_range (timeframe : string) :
  ∃ fixture (c : Z),
    get_signal timeframe = Ok fixture ∧
    fixture !! "confidence" = Some (PInt c) ∧ (0 ≤ c ≤ 100)%Z.
Proof.
  destruct (mock_signal_data !! timeframe) as [fixture|] eqn:H.
  - destruct (fixtures_confidence_in_range _ _ H) as (c & Hc & Hrange).
    exists fixture, c. split; [by apply get_signal_known | done].
  - exists signal_default, 81%Z.
    split; [by apply get_signal_unknown|]. split; [reflexivity | by_evaluation].
Qed.

Lemma signal_15m_not_default : signal_15m ≠ signal_default.
Proof.
  intros H. apply (f_equal (λ d : gmap string pyval, d !! "confidence")) in H.
  vm_compute in H. discriminate.
Qed.

(** C9. Without a timeframe in the query string the handler runs with "15m"
    and returns the fixture stored under "15m", which is not the one stored
    under "default". *)
Theorem get_signal_query_default :
  get_signal_query None = get_signal "15m" ∧
  get_signal_query None = Ok signal_15m ∧
  mock_signal_data !! "15m" = Some signal_15m ∧
  get_signal_query None ≠ get_signal "default".
Proof.
  repeat split; try reflexivity.
  change (Ok signal_15m ≠ Ok signal_default).
  intros H. apply signal_15m_not_default. congruence.
Qed.

(** ** The trade log *)

(** C6. [get_trade_log] returns the trades in the order in which the list
    was written, with ids "1" to "8", and no id occurs twice. *)
Theorem trade_log_ordered_unique :
  get_trade_log = mock_trade_log_data ∧
  trade_ids get_trade_log
    = (λ s, Some (PStr s)) <$> ["1"; "2"; "3"; "4"; "5"; "6"; "7"; "8"] ∧
  NoDup (trade_ids get_trade_log).
Proof.
  split; [reflexivity|]. split; [reflexivity|].
  change (NoDup ((λ s, Some (PStr s)) <$> ["1"; "2"; "3"; "4"; "5"; "6"; "7"; "8"])).
  apply NoDup_fmap_2.
  - intros s1 s2 H. congruence.
  - by_evaluation.
Qed.

(** ** Validation of PATCH bodies *)

Section RouteProperties.

Variable validate_bool : json → option bool.
Variable validate_float : json → option float.

(** The [Literal] of [accountType] is checked whatever the scalar validators
    are: a value that is neither [null] nor one of the two strings yields no
    [SettingsUpdate], and the store is left as it was. *)
Lemma accountType_outside_refused members v store :
  json_object members !! "accountType" = Some v →
  v ≠ JNull → v ≠ JStr "futures" → v ≠ JStr "spot" →
  (∃ errors, SettingsUpdate_validate validate_bool validate_float (JObj members)
             = inl errors) ∧
  snd (patch_settings validate_bool validate_float (JObj members) store) = store.
Proof.
  intros Hv Hnull Hf Hs.
  assert (validate_field validate_AccountType (LiteralExpected ["futures"; "spot"])
            "accountType" (json_object members)
          = inl (mkError ["body"; "accountType"] (LiteralExpected ["futures"; "spot"])))
    as Hfield.
  { unfold validate_field. rewrite Hv.
    assert (validate_AccountType v = None) as ->.
    { destruct v; try done. simpl. unfold AccountType_of_str.
      rewrite !decide_False; [done | congruence | congruence]. }
    by destruct v. }
  assert (∃ errors, SettingsUpdate_validate validate_bool validate_float (JObj members)
                    = inl errors) as [errors Herrors].
  { unfold SettingsUpdate_validate. rewrite Hfield.
    match goal with
    | |- ∃ _, match ?l with _ => _ end = _ => destruct l eqn:Hl
    end; [|eauto].
    exfalso. repeat (apply app_eq_nil in Hl as [_ Hl]). discriminate. }
  split; [eauto|]. unfold patch_settings. by rewrite Herrors.
Qed.

End RouteProperties.

Example patch_accountType_margin :
  patch_settings json_bool json_float (JObj [("accountType", JStr "margin")])
                 mock_settings_data
    = (NotCalled [mkError ["body"; "accountType"] (LiteralExpected ["futures"; "spot"])],
       mock_settings_data).
Proof. reflexivity. Qed.

Example patch_valid_body :
  snd (patch_settings json_bool json_float
         (JObj [("accountType", JStr "spot"); ("stopLoss", JInt 3); ("note", JNull)])
         mock_settings_data)
    = <["accountType" := PStr "spot"]> (<["stopLoss" := PFloat 3]> mock_settings_data).
Proof. by vm_compute. Qed.

(** * Further properties *)

(** ** Algebra of the merge *)

Lemma update_settings_assigned u store k :
  snd (update_settings u store) !! k =
    match assigned u k with
    | Some v => Some v
    | None => store !! k
    end.
Proof.
  rewrite update_settings_lookup. unfold assigned.
  case_decide; [|done].
  destruct (getattr u k) as [v|]; [|done]. by destruct (is_not_None v).
Qed.

Lemma assigned_not_None u k v : assigned u k = Some v → v ≠ PNone.
Proof.
  unfold assigned. case_decide; [|discriminate].
  destruct (getattr u k) as [w|]; [|discriminate].
  destruct (is_not_None w) eqn:Hw; [|discriminate].
  intros [= <-]. by apply is_not_None_true.
Qed.

Lemma assigned_declared u k v : assigned u k = Some v → k ∈ SettingsUpdate_fields.
Proof.
  unfold assigned. case_decide; [|discriminate].
  destruct (getattr u k) as [w|] eqn:Hw; [|discriminate].
  intros _. by eapply getattr_declared.
Qed.

Lemma NoDup_filter_keys (P : string * pyval → Prop) `{!∀ x, Decision (P x)}
    (l : list (string * pyval)) :
  NoDup l.*1 → NoDup (filter P l).*1.
Proof.
  intros Hnd. eapply sublist_NoDup; [exact Hnd|].
  apply fmap_sublist, sublist_filter.
Qed.

Lemma changes_lookup u k : changes u !! k = assigned u k.
Proof.
  unfold changes.
  pose proof (NoDup_filter_keys (λ item, is_not_None item.2) _
                (NoDup_dict_exclude_unset u)) as Hnd.
  destruct (assigned u k) as [v|] eqn:Ha.
  - apply elem_of_list_to_map_1; [done|].
    apply list_elem_of_filter. unfold assigned in Ha.
    case_decide as Hset; [|discriminate].
    destruct (getattr u k) as [w|] eqn:Hget; [|discriminate].
    destruct (is_not_None w) eqn:Hw; [|discriminate].
    injection Ha as <-. split; [simpl; by rewrite Hw|].
    by apply elem_of_dict_exclude_unset.
  - apply not_elem_of_list_to_map_1. intros Hin.
    apply list_elem_of_fmap in Hin as ([k' v] & -> & Hin).
    apply list_elem_of_filter in Hin as [Hv Hin]. simpl in *.
    apply elem_of_dict_exclude_unset in Hin as [Hset Hget].
    unfold assigned in Ha. rewrite decide_True, Hget in Ha by done.
    destruct (is_not_None v); [discriminate | done].
Qed.

(** X1. The in-place loop computes a dictionary merge: the store afterwards
    is the dictionary of the request's non-[None] items laid over the old
    store. *)
Theorem update_settings_as_union (u : SettingsUpdate) (store : gmap string pyval) :
  snd (update_settings u store) = changes u ∪ store.
Proof.
  apply map_eq. intros k.
  rewrite update_settings_assigned.
  destruct (assigned u k) as [v|] eqn:Ha.
  - symmetry. apply lookup_union_Some_l. by rewrite changes_lookup.
  - rewrite lookup_union_r; [done|]. by rewrite changes_lookup.
Qed.

(** X2. Sending the same update twice has the effect of sending it once. *)
Theorem update_settings_idempotent (u : SettingsUpdate) (store : gmap string pyval) :
  run_updates [u; u] store = run_updates [u] store.
Proof.
  rewrite !run_updates_cons, !run_updates_nil.
  apply map_eq. intros k. rewrite !update_settings_assigned.
  by destruct (assigned u k).
Qed.

(** X3. A later update hides an earlier one when it assigns every key the
    earlier one assigns. *)
Theorem update_settings_absorbs (u1 u2 : SettingsUpdate) (store : gmap string pyval) :
  (∀ k, is_Some (assigned u1 k) → is_Some (assigned u2 k)) →
  run_updates [u1; u2] store = run_updates [u2] store.
Proof.
  intros Hcover. rewrite !run_updates_cons, !run_updates_nil.
  apply map_eq. intros k. rewrite !update_settings_assigned.
  destruct (assigned u2 k) as [v2|] eqn:H2; [done|].
  destruct (assigned u1 k) as [v1|] eqn:H1; [|done].
  destruct (Hcover k) as [v Hv]; [by rewrite H1; eauto | congruence].
Qed.

Lemma update_settings_absorbs_witness :
  run_updates [patch_stopLoss_3; patch_autoTrading_stopLoss_1] mock_settings_data
    = run_updates [patch_autoTrading_stopLoss_1] mock_settings_data.
Proof.
  apply update_settings_absorbs. intros k [v Hv].
  pose proof (assigned_declared _ _ _ Hv) as Hk.
  unfold SettingsUpdate_fields in Hk.
  rewrite !elem_of_cons, elem_of_nil in Hk.
  destruct Hk as [->|[->|[->|[->|[->|[]]]]]]; vm_compute in Hv; try discriminate.
  vm_compute. eauto.
Defined.

(** X4. Two updates may be applied in either order when they agree on every
    key that both assign. *)
Theorem update_settings_commute (u1 u2 : SettingsUpdate) (store : gmap string pyval) :
  (∀ k v1 v2, assigned u1 k = Some v1 → assigned u2 k = Some v2 → v1 = v2) →
  run_updates [u1; u2] store = run_updates [u2; u1] store.
Proof.
  intros Hagree. rewrite !run_updates_cons, !run_updates_nil.
  apply map_eq. intros k. rewrite !update_settings_assigned.
  destruct (assigned u1 k) as [v1|] eqn:H1, (assigned u2 k) as [v2|] eqn:H2; try done.
  f_equal. symmetry. by eapply Hagree.
Qed.

Lemma update_settings_commute_witness :
  run_updates [patch_accountType_spot; patch_stopLoss_1] mock_settings_data
    = run_updates [patch_stopLoss_1; patch_accountType_spot] mock_settings_data.
Proof.
  apply update_settings_commute. intros k v1 v2 H1 H2.
  pose proof (assigned_declared _ _ _ H1) as Hk.
  unfold SettingsUpdate_fields in Hk.
  rewrite !elem_of_cons, elem_of_nil in Hk.
  destruct Hk as [->|[->|[->|[->|[->|[]]]]]];
    vm_compute in H1; vm_compute in H2; discriminate.
Defined.

(** X5. The effect of an update depends only on the keys it assigns a
    non-[None] value: setting a key to [None] is the same as not naming it. *)
Theorem update_settings_null_as_absent (u u' : SettingsUpdate) (store : gmap string pyval) :
  (∀ k, assigned u k = assigned u' k) →
  update_settings u store = update_settings u' store.
Proof.
  intros Hsame.
  assert (snd (update_settings u store) = snd (update_settings u' store)) as H.
  { apply map_eq. intros k. by rewrite !update_settings_assigned, Hsame. }
  unfold update_settings in *. simpl in H. by rewrite H.
Qed.

Lemma update_settings_null_as_absent_witness :
  update_settings patch_stopLoss_3_takeProfit_null mock_settings_data
    = update_settings patch_stopLoss_3 mock_settings_data.
Proof.
  apply update_settings_null_as_absent. intros k.
  destruct (decide (k = "stopLoss")) as [->|Hsl]; [reflexivity|].
  destruct (decide (k = "takeProfit")) as [->|Htp]; [reflexivity|].
  unfold assigned.
  rewrite !decide_False; [done | |].
  - unfold patch_stopLoss_3. simpl. by rewrite elem_of_singleton.
  - unfold patch_stopLoss_3_takeProfit_null. simpl.
    rewrite elem_of_union, !elem_of_singleton. tauto.
Defined.

(** ** Reachable stores *)

Lemma settings_shape_reached_in_one (store0 store : gmap string pyval) :
  settings_shape store0 → settings_shape store →
  ∃ u, snd (update_settings u store0) = store.
Proof.
  intros (Hdom0 & _) (Hdom & [a Ha] & [sl Hsl] & [tp Htp] & [t Ht] & Hacc).
  assert (∃ acc, store !! "accountType" = Some (PStr (AccountType_str acc)))
    as [acc Hacc'].
  { destruct Hacc; [by exists futures | by exists spot]. }
  exists (mkSettingsUpdate (Some a) (Some sl) (Some tp) (Some t) (Some acc) settings_keys).
  apply map_eq. intros k. rewrite update_settings_assigned.
  destruct (decide (k ∈ settings_keys)) as [Hk | Hk].
  - apply elem_of_settings_keys in Hk. unfold SettingsUpdate_fields in Hk.
    rewrite !elem_of_cons, elem_of_nil in Hk.
    destruct Hk as [->|[->|[->|[->|[->|[]]]]]]; by vm_compute.
  - unfold assigned. simpl. rewrite decide_False by done.
    transitivity (@None pyval).
    + apply not_elem_of_dom. by rewrite Hdom0.
    + symmetry. apply not_elem_of_dom. by rewrite Hdom.
Qed.

(** X6. The stores that sequences of updates produce from the startup store
    are exactly the dictionaries with the five settings keys and values of
    the declared types, and every such store is produced from the startup
    store by a single update. *)
Theorem reachable_iff_settings_shape (store : gmap string pyval) :
  ((∃ us, run_updates us mock_settings_data = store) ↔ settings_shape store) ∧
  (settings_shape store →
   ∃ u, snd (update_settings u mock_settings_data) = store
        ∧ run_updates [u] mock_settings_data = store).
Proof.
  assert (Hone : settings_shape store →
                 ∃ u, snd (update_settings u mock_settings_data) = store).
  { intros Hshape. apply settings_shape_reached_in_one; [|done].
    apply settings_shape_startup. }
  split; [split|].
  - intros [us <-]. apply run_updates_shape, settings_shape_startup.
  - intros [u Hu]%Hone. exists [u]. by rewrite run_updates_cons, run_updates_nil.
  - intros [u Hu]%Hone. exists u. split; [done|].
    by rewrite run_updates_cons, run_updates_nil.
Qed.

Lemma reachable_iff_settings_shape_witness :
  ∃ u, snd (update_settings u mock_settings_data)
         = list_to_map [ ("autoTrading", PBool true); ("stopLoss", PFloat 1.0);
                         ("takeProfit", PFloat 9.5); ("telegramAlerts", PBool false);
                         ("accountType", PStr "spot") ]
       ∧ run_updates [u] mock_settings_data
         = list_to_map [ ("autoTrading", PBool true); ("stopLoss", PFloat 1.0);
                         ("takeProfit", PFloat 9.5); ("telegramAlerts", PBool false);
                         ("accountType", PStr "spot") ].
Proof.
  apply (proj2 (reachable_iff_settings_shape _)).
  split; [by_evaluation|].
  repeat split; eauto.
Defined.

(** ** The settings routes *)

Section SettingsRoutes.

Variable validate_bool : json → option bool.
Variable validate_float : json → option float.

Lemma patch_settings_accepted body settings store :
  SettingsUpdate_validate validate_bool validate_float body = inr settings →
  patch_settings validate_bool validate_float body store
    = (Returned (snd (update_settings settings store)),
       snd (update_settings settings store)).
Proof. intros H. unfold patch_settings. by rewrite H. Qed.

Lemma validate_field_null {A} (validate : json → option A) kd name obj :
  (∀ v, obj !! name = Some v → v = JNull) →
  field_errors (validate_field validate kd name obj) = [] ∧
  field_value (validate_field validate kd name obj) = None.
Proof.
  intros H. unfold validate_field.
  destruct (obj !! name) as [v|]; [|done]. by rewrite (H v eq_refl).
Qed.

Lemma update_settings_nothing_assigned u store :
  (∀ k, assigned u k = None) → snd (update_settings u store) = store.
Proof.
  intros H. apply map_eq. intros k. by rewrite update_settings_assigned, H.
Qed.

(** X8. A settings key cannot be cleared: a JSON object in which every
    declared attribute is absent or [null], whatever else it holds, is
    accepted and leaves the store as it was. *)
Theorem patch_nulls_noop (members : list (string * json)) (store : gmap string pyval) :
  (∀ k v, k ∈ SettingsUpdate_fields → json_object members !! k = Some v → v = JNull) →
  (∃ settings,
     SettingsUpdate_validate validate_bool validate_float (JObj members) = inr settings) ∧
  snd (patch_settings validate_bool validate_float (JObj members) store) = store.
Proof.
  intros Hnull.
  assert (∀ k, k ∈ SettingsUpdate_fields →
               ∀ v, json_object members !! k = Some v → v = JNull) as Hnull'
    by (intros k Hk v; by apply Hnull).
  assert (∃ fs, SettingsUpdate_validate validate_bool validate_float (JObj members)
                = inr (mkSettingsUpdate None None None None None fs)) as [fs Hfs].
  { unfold SettingsUpdate_validate.
    destruct (validate_field_null validate_bool BoolExpected "autoTrading"
                (json_object members)) as [-> ->]; [apply Hnull'; by_evaluation|].
    destruct (validate_field_null validate_float FloatExpected "stopLoss"
                (json_object members)) as [-> ->]; [apply Hnull'; by_evaluation|].
    destruct (validate_field_null validate_float FloatExpected "takeProfit"
                (json_object members)) as [-> ->]; [apply Hnull'; by_evaluation|].
    destruct (validate_field_null validate_bool BoolExpected "telegramAlerts"
                (json_object members)) as [-> ->]; [apply Hnull'; by_evaluation|].
    destruct (validate_field_null validate_AccountType
                (LiteralExpected ["futures"; "spot"]) "accountType"
                (json_object members)) as [-> ->]; [apply Hnull'; by_evaluation|].
    simpl. eauto. }
  split; [eauto|].
  rewrite (patch_settings_accepted _ _ _ Hfs). cbn [fst snd].
  apply update_settings_nothing_assigned. intros k. unfold assigned.
  case_decide; [|done].
  destruct (getattr _ k) as [v|] eqn:Hget; [|done].
  unfold getattr in Hget. simpl in Hget.
  repeat case_decide; simplify_eq; done.
Qed.

End SettingsRoutes.

Lemma patch_nulls_noop_witness :
  snd (patch_settings json_bool json_float
         (JObj [("stopLoss", JNull); ("note", JStr "n/a")]) mock_settings_data)
    = mock_settings_data.
Proof.
  apply (patch_nulls_noop json_bool json_float
           [("stopLoss", JNull); ("note", JStr "n/a")] mock_settings_data).
  intros k v Hk. unfold SettingsUpdate_fields in Hk.
  rewrite !elem_of_cons, elem_of_nil in Hk.
  destruct Hk as [->|[->|[->|[->|[->|[]]]]]]; vm_compute; congruence.
Defined.

(** ** The signal reader, continued *)

Lemma fixtures_match_SignalData :
  map_Forall (λ _ fixture, is_Some (SignalData_of_dict fixture)) mock_signal_data.
Proof.
  unfold mock_signal_data.
  repeat (apply map_Forall_insert_2; [by vm_compute; eauto|]).
  apply map_Forall_empty.
Qed.

(** X10. Whatever the timeframe string, the dictionary [get_signal] returns
    is accepted by its response model [SignalData]: all seven fields are
    present with the declared types and [signal] is BUY, SELL or HOLD. *)
Theorem get_signal_matches_SignalData (timeframe : string) :
  ∃ fixture sd,
    get_signal timeframe = Ok fixture ∧ SignalData_of_dict fixture = Some sd.
Proof.
  destruct (mock_signal_data !! timeframe) as [fixture|] eqn:H.
  - destruct (fixtures_match_SignalData _ _ H) as [sd Hsd].
    exists fixture, sd. split; [by apply get_signal_known | done].
  - destruct (fixtures_match_SignalData "default" signal_default eq_refl) as [sd Hsd].
    exists signal_default, sd. split; [by apply get_signal_unknown | done].
Qed.

(** X11. A timeframe that is present in the query but not a key of the table
    (the empty string included) gets the default fixture, which is not what
    a query without the parameter gets. *)
Theorem unrecognized_differs_from_omitted (timeframe : string) :
  timeframe ∉ signal_keys →
  get_signal_query (Some timeframe) = Ok signal_default ∧
  get_signal_query (Some timeframe) ≠ get_signal_query None.
Proof.
  rewrite <- dom_mock_signal_data, not_elem_of_dom. intros H.
  assert (get_signal_query (Some timeframe) = Ok signal_default) as ->
    by by apply get_signal_unknown.
  split; [done|].
  change (Ok signal_default ≠ Ok signal_15m).
  intros Heq. apply signal_15m_not_default. congruence.
Qed.

Lemma unrecognized_differs_from_omitted_witness :
  get_signal_query (Some "") = Ok signal_default ∧
  get_signal_query (Some "") ≠ get_signal_query None.
Proof. apply unrecognized_differs_from_omitted. by_evaluation. Defined.

(** The timestamp of the fixture stored under a key. *)
Lemma get_signal_timestamp k1 k2 :
  get_signal k1 = get_signal k2 →
  (match get_signal k1 with Ok d => d !! "timestamp" | Raise _ => None end)
  = (match get_signal k2 with Ok d => d !! "timestamp" | Raise _ => None end).
Proof. by intros ->. Qed.

(** X12. Among the keys of the table, "1h" and "default" return the same
    signal and every other pair of distinct keys returns different
    signals. *)
Theorem get_signal_distinguishes (k1 k2 : string) :
  k1 ∈ signal_keys → k2 ∈ signal_keys →
  (get_signal k1 = get_signal k2 ↔
   k1 = k2 ∨ (k1 = "1h" ∧ k2 = "default") ∨ (k1 = "default" ∧ k2 = "1h")).
Proof.
  unfold signal_keys. rewrite !elem_of_union, !elem_of_singleton.
  intros H1 H2. split.
  - intros Heq%get_signal_timestamp.
    destruct H1 as [[[[[[->| ->]| ->]| ->]| ->]| ->]| ->];
      destruct H2 as [[[[[[->| ->]| ->]| ->]| ->]| ->]| ->];
      first [ by left | by (right; left) | by (right; right)
            | vm_compute in Heq; discriminate ].
  - intros [-> | [[-> ->] | [-> ->]]]; reflexivity.
Qed.

Lemma get_signal_distinguishes_witness :
  get_signal "1h" = get_signal "default" ∧ get_signal "4h" ≠ get_signal "1d".
Proof.
  split.
  - apply (get_signal_distinguishes "1h" "default"); [by_evaluation..|].
    right; left; done.
  - intros H.
    apply (get_signal_distinguishes "4h" "1d") in H; [|by_evaluation..].
    destruct H as [H | [[H _] | [H _]]]; discriminate.
Defined.

(** ** The trade log, continued *)

(** X13. Every trade of the log is accepted by its response model
    [TradeData], the integer 0 written for [exit] and [pnl] being read as the
    float 0.0; the trades read this way with status OPEN are exactly those with
    exit 0.0. *)
Theorem trade_log_matches_TradeData :
  Forall (λ t, ∃ td, TradeData_of_dict t = Some td ∧
                     (td_status td = "OPEN" ↔ td_exit td = 0%float))
         get_trade_log.
Proof.
  unfold get_trade_log, mock_trade_log_data.
  repeat (apply Forall_cons; split;
    [ eexists; split; [by vm_compute|]; split; intros H;
      first [ reflexivity | discriminate
            | (exfalso;
               apply (f_equal (λ f, PrimFloat.eqb f 0%float)) in H;
               vm_compute in H; discriminate) ] | ]).
  apply Forall_nil_2.
Qed.

(** ** Routing (main.py) *)



Lemma app_routes_eq :
  app_routes =
    [ (GET, "/openapi.json", h_openapi);
      (GET, "/docs", h_swagger_ui_html);
      (GET, "/docs/oauth2-redirect", h_swagger_ui_redirect);
      (GET, "/redoc", h_redoc_html);
      (GET, "/api/signal", h_get_signal);
      (GET, "/api/performance", h_get_performance);
      (GET, "/api/tradeLog", h_get_trade_log);
      (GET, "/api/settings", h_get_settings);
      (PATCH, "/api/settings", h_update_settings);
      (GET, "/api/sentiment", h_get_sentiment);
      (GET, "/api/riskAnalysis", h_get_risk_analysis);
      (GET, "/", h_root) ].
Proof. reflexivity. Qed.

(** X14. No route of the application is shadowed: every handler registered
    in main.py is the one its own method and prefixed path are routed to. *)
Theorem registered_routes_reachable (m : method) (path : string) (h : handler) :
  (m, path, h) ∈ app_routes → dispatch app_routes m path = Found h.
Proof.
  rewrite app_routes_eq, !elem_of_cons, elem_of_nil.
  intros [H|[H|[H|[H|[H|[H|[H|[H|[H|[H|[H|[H|[]]]]]]]]]]]]];
    simplify_eq; reflexivity.
Qed.

Lemma registered_routes_reachable_witness :
  dispatch app_routes PATCH "/api/settings" = Found h_update_settings.
Proof.
  apply registered_routes_reachable. rewrite app_routes_eq.
  do 8 apply list_elem_of_further. apply list_elem_of_here.
Defined.



